(** * text_analyzer.py: part-of-speech filtering and word-cloud rendering

    A shallow embedding of [src/text_analyzer.py]: the three functions
    [analyze_strings], [generate_wordcloud] and [fetch_texts], and the
    script body that chains them.

    Python [str] values are sequences of Unicode code points, and the module
    is modelled on exactly that: a character is a code point, a string is a
    list of them.  The external libraries (MeCab, requests, wordcloud,
    matplotlib) are not reimplemented: the tagger, the renderer, pyplot and
    the HTTP client are parameters of the functions that call them. *)

From Stdlib Require Import Ascii String.
From stdpp Require Import base decidable option numbers list gmap.

Local Open Scope N_scope.

(** ** Python strings *)

Module PyStr.

(** A code point. *)
Abbreviation char := N (only parsing).

(** A Python [str]. *)
Abbreviation str := (list N) (only parsing).

(** *** Literals

    The literals of the source are written here as they stand in the file,
    which is UTF-8 encoded; [decode] turns the bytes into code points. *)

Fixpoint bytes_of (s : string) : list N :=
  match s with
  | EmptyString => []
  | String a s' => N_of_ascii a :: bytes_of s'
  end.

(** Payload of a continuation byte [10xxxxxx]. *)
Definition cont (b : N) : N := N.land b 63.

Fixpoint decode_bytes (fuel : nat) (bs : list N) : str :=
  match fuel with
  | O => []
  | S fuel' =>
      match bs with
      | [] => []
      | b0 :: r0 =>
          if b0 <? 128 then b0 :: decode_bytes fuel' r0
          else if b0 <? 224 then
            match r0 with
            | b1 :: r1 =>
                (N.shiftl (N.land b0 31) 6 + cont b1) :: decode_bytes fuel' r1
            | _ => []
            end
          else if b0 <? 240 then
            match r0 with
            | b1 :: b2 :: r2 =>
                (N.shiftl (N.land b0 15) 12 + N.shiftl (cont b1) 6 + cont b2)
                  :: decode_bytes fuel' r2
            | _ => []
            end
          else
            match r0 with
            | b1 :: b2 :: b3 :: r3 =>
                (N.shiftl (N.land b0 7) 18 + N.shiftl (cont b1) 12
                 + N.shiftl (cont b2) 6 + cont b3)
                  :: decode_bytes fuel' r3
            | _ => []
            end
      end
  end.

Definition decode (s : string) : str :=
  let bs := bytes_of s in decode_bytes (length bs) bs.

Definition TAB : char := 9.
Definition NEWLINE : char := 10.
Definition SPACE : char := 32.
Definition HYPHEN : char := 45.

(** *** [str.split(sep)] for a separator of one character

    Every occurrence of the separator ends a field; the result always has
    one field more than there are separators, so it is never empty
    ([''.split(sep) == ['']]). *)
Fixpoint split (sep : char) (s : str) : list str :=
  match s with
  | [] => [[]]
  | c :: s' =>
      if decide (c = sep) then [] :: split sep s'
      else
        match split sep s' with
        | [] => [[c]]
        | field :: fields => (c :: field) :: fields
        end
  end.

(** *** [sep.join(words)] *)
Fixpoint join (sep : str) (words : list str) : str :=
  match words with
  | [] => []
  | [w] => w
  | w :: ws => w ++ sep ++ join sep ws
  end.

(** *** [c in s] for a character [c] *)
Definition contains (c : char) (s : str) : bool := bool_decide (c ∈ s).

(** *** [str.strip()]

    Without an argument, [strip] removes the characters for which
    [str.isspace] holds: the ASCII controls 0x09-0x0D and 0x1C-0x1F, the
    space, and the Unicode white space outside ASCII. *)
Definition isspace (c : char) : bool :=
  ((9 <=? c) && (c <=? 13)) || ((28 <=? c) && (c <=? 32))
  || (c =? 133) || (c =? 160) || (c =? 5760)
  || ((8192 <=? c) && (c <=? 8202))
  || (c =? 8232) || (c =? 8233) || (c =? 8239) || (c =? 8287)
  || (c =? 12288).

Fixpoint lstrip (s : str) : str :=
  match s with
  | [] => []
  | c :: s' => if isspace c then lstrip s' else s
  end.

Definition rstrip (s : str) : str := reverse (lstrip (reverse s)).

Definition strip (s : str) : str := rstrip (lstrip s).

(** Truth value of a string: the empty string is false. *)
Definition truthy (s : str) : bool :=
  match s with [] => false | _ => true end.

End PyStr.

Import PyStr.

(** ** The morphological analysis step *)

Module Analyzer.

(** The end-of-sentence marker of the tagger's output. *)
Definition EOS : str := Eval cbv in decode "EOS".

(** 名詞 (noun), 動詞 (verb), 形容詞 (adjective). *)
Definition NOUN : str := Eval cbv in decode "名詞".
Definition VERB : str := Eval cbv in decode "動詞".
Definition ADJECTIVE : str := Eval cbv in decode "形容詞".

Definition KEPT_POS : list str := [NOUN; VERB; ADJECTIVE].

(** [parts[i]].  Both uses are in range, where [item] is the list lookup
    ([item_lookup], [split_length_pos], [analyze_line_indices] below): the
    default is never returned, no [IndexError] is raised. *)
Definition item (i : nat) (parts : list str) : str := nth i parts [].

(** [pos_info.split("-")[0] if "-" in pos_info else pos_info] *)
Definition pos_of (pos_info : str) : str :=
  if contains HYPHEN pos_info then item 0 (split HYPHEN pos_info)
  else pos_info.

(** The body of the inner loop, for one line of the tagger's output;
    [result_words] is the list being appended to. *)
Definition analyze_line (result_words : list str) (line : str) : list str :=
  if bool_decide (line = EOS) || bool_decide (line = []) then result_words
  else
    let parts := split TAB line in
    if (length parts <? 5)%nat then result_words
    else
      let word := item 0 parts in
      let pos_info := item 4 parts in
      let pos := pos_of pos_info in
      if bool_decide (pos ∈ KEPT_POS) then result_words ++ [word]
      else result_words.

Section WithTagger.

(** [t.parse]: the tagger built once at load time, a fixed function from
    the text to its analysis. *)
Variable parse : str → str.

(** The body of the outer loop, for one input text. *)
Definition analyze_text (result_words : list str) (text : str) : list str :=
  let parsed := parse text in
  let lines := split NEWLINE parsed in
  foldl analyze_line result_words lines.

Definition analyze_strings (strings : list str) : list str :=
  foldl analyze_text [] strings.

End WithTagger.

End Analyzer.

Import Analyzer.

(** ** Values, exceptions and the outside world *)

Module Py.

(** The values [response.json()] can return.  A float keeps the text of its
    literal; a dict keeps its entries in insertion order, the keys of a JSON
    object being strings. *)
#[warnings="-register-all"]
Inductive pyval : Type :=
  | PNone
  | PBool (b : bool)
  | PInt (z : Z)
  | PFloat (literal : str)
  | PStr (s : str)
  | PList (items : list pyval)
  | PDict (entries : list (str * pyval)).

(** The exceptions that reach the top level; none is caught anywhere. *)
Inductive exn : Type :=
  | TypeError
  | ValueError
  | OSError
  | AttributeError
  | RequestException
  | JSONDecodeError.

Inductive result (A : Type) : Type :=
  | Ok (a : A)
  | Raise (e : exn).
Arguments Ok {A} a.
Arguments Raise {A} e.

(** [WordCloud(...)]: the keyword arguments of the constructor call. *)
Record WordCloud : Type := {
  width : Z;
  height : Z;
  background_color : str;
  max_words : Z;
  font_path : str;
  colormap : str
}.

(** The rendered cloud, an array of RGB pixels. *)
Definition Image : Type := list (list (N * N * N)).

(** What a figure drawn with pyplot is made of. *)
Record Figure : Type := {
  figsize : Z * Z;
  image : Image;
  interpolation : str;
  axis : str;
  pad : Z
}.

Record SavedFigure : Type := {
  figure : Figure;
  dpi : Z;
  bbox_inches : str
}.

(** What the script can change: the lines printed, the files there are (by
    the name the file system has them under, which is for [plt.savefig] to
    work out from the path it is given), the figures shown. *)
Record World : Type := {
  stdout : list str;
  files : gmap str SavedFigure;
  shown : list Figure
}.

(** A computation returns or raises, in a world it may have changed. *)
Definition M (A : Type) : Type := World → result A * World.

Definition ret {A} (a : A) : M A := λ w, (Ok a, w).

Definition raise {A} (e : exn) : M A := λ w, (Raise e, w).

Definition bind {A B} (m : M A) (k : A → M B) : M B :=
  λ w, match m w with
       | (Ok a, w') => k a w'
       | (Raise e, w') => (Raise e, w')
       end.

(** A library call that touches nothing of the world. *)
Definition lift {A} (r : result A) : M A := λ w, (r, w).

#[global] Instance M_ret : MRet M := @ret.
#[global] Instance M_bind : MBind M := λ A B k m, bind m k.

(** [print(line)] *)
Definition print (line : str) : M unit :=
  λ w, (Ok tt, {| stdout := stdout w ++ [line];
                  files := files w;
                  shown := shown w |}).

(** [matplotlib.pyplot], as far as the script calls it.  Nothing of it is
    modelled: a call may change the world (a file written, a window
    opened) or raise (no display for [plt.figure], an image [plt.imshow]
    cannot draw, a format or a directory [plt.savefig] does not know), and
    where [plt.savefig] writes is its own business (it adds [.png] to a
    path without an extension).  The figure being drawn is pyplot's own
    state; the script makes each call once in a run, and a call is taken
    as it acts at that point of the run. *)
Record Pyplot : Type := {
  plt_figure : Z * Z → M unit;
  plt_imshow : Image → str → M unit;
  plt_axis : str → M unit;
  plt_tight_layout : Z → M unit;
  plt_savefig : str → Z → str → M unit;
  plt_show : M unit
}.

(** What [for text in strings: t.parse(text)] accepts: a list is walked by
    its items, a dict by its keys, a string by its characters, anything else
    is not iterable.  The tagger takes a [str]; any other item is a
    [TypeError], but for [None], which it takes and answers with [None], so
    that [parsed.split] is the call that fails, with an [AttributeError].
    The error is raised in the loop, where the words found so far are lost
    with the frame. *)
Definition as_str (v : pyval) : result str :=
  match v with
  | PStr s => Ok s
  | PNone => Raise AttributeError
  | _ => Raise TypeError
  end.

Fixpoint all_str (items : list pyval) : result (list str) :=
  match items with
  | [] => Ok []
  | v :: items' =>
      match as_str v with
      | Ok s =>
          match all_str items' with
          | Ok ss => Ok (s :: ss)
          | Raise e => Raise e
          end
      | Raise e => Raise e
      end
  end.

Definition texts_of (strings : pyval) : result (list str) :=
  match strings with
  | PList items => all_str items
  | PDict entries => Ok (map fst entries)
  | PStr s => Ok (map (λ c, [c]) s)
  | PNone | PBool _ | PInt _ | PFloat _ => Raise TypeError
  end.

End Py.

Import Py.

(** ** Rendering *)

Module Render.

(** 抽出された単語がありません: no word was extracted. *)
Definition NO_WORDS : str := Eval cbv in decode "抽出された単語がありません".

Definition SAVED_PREFIX : str := Eval cbv in decode "ワードクラウドを ".
Definition SAVED_SUFFIX : str := Eval cbv in decode " に保存しました".

Definition DEFAULT_OUTPUT_PATH : str := Eval cbv in decode "wordcloud.png".

Definition WHITE : str := Eval cbv in decode "white".
Definition FONT_PATH : str := Eval cbv in decode "./fonts/NotoSansJP-Regular.ttf".
Definition VIRIDIS : str := Eval cbv in decode "viridis".
Definition BILINEAR : str := Eval cbv in decode "bilinear".
Definition OFF : str := Eval cbv in decode "off".
Definition TIGHT : str := Eval cbv in decode "tight".

(** The arguments of the [WordCloud(...)] call. *)
Definition CLOUD : WordCloud := {|
  width := 1920;
  height := 1080;
  background_color := WHITE;
  max_words := 100;
  font_path := FONT_PATH;
  colormap := VIRIDIS
|}.

Section WithLibraries.

Variable parse : str → str.

(** [WordCloud(...).generate(text)]: the renderer, which lays the words
    out or raises (no font file, no word left to draw). *)
Variable generate : WordCloud → str → result Image.

Variable plt : Pyplot.

(** The second half of [generate_wordcloud]: the six pyplot calls, and the
    line printed when they have all returned. *)
Definition save_and_show (wordcloud : Image) (output_path : str) : M unit :=
  plt_figure plt (10, 5)%Z ;;
  plt_imshow plt wordcloud BILINEAR ;;
  plt_axis plt OFF ;;
  plt_tight_layout plt 0 ;;
  plt_savefig plt output_path 300 TIGHT ;;
  plt_show plt ;;
  print (SAVED_PREFIX ++ output_path ++ SAVED_SUFFIX).

Definition generate_wordcloud (strings : pyval) (output_path : str) : M unit :=
  texts ← lift (texts_of strings);
  let words := analyze_strings parse texts in
  let text := join [SPACE] words in
  if negb (truthy (strip text)) then
    print NO_WORDS
  else
    wordcloud ← lift (generate CLOUD text);
    save_and_show wordcloud output_path.

End WithLibraries.

End Render.

Import Render.

(** ** Fetching *)

Module Fetch.

(** What the script reads of a [requests.Response]: the status and what
    [response.json()] gives, the decoded body or a decoding error. *)
Record Response : Type := {
  status_code : Z;
  json : result pyval
}.

Definition FAILED_PREFIX : str := Eval cbv in decode "Failed to fetch data from ".

Section WithHttp.

(** [requests.get]: one attempt, a response or a network error. *)
Variable requests_get : str → result Response.

Definition fetch_texts (url : str) : M pyval :=
  response ← lift (requests_get url);
  if (status_code response =? 200)%Z then
    lift (json response)
  else
    print (FAILED_PREFIX ++ url) ;;
    mret (PList []).

End WithHttp.

End Fetch.

Import Fetch.

(** ** The script *)

Module Script.

Definition URL : str :=
  Eval cbv in decode "https://nostr-worker-relay.akazdayo.workers.dev/get-event".

Section WithLibraries.

Variable parse : str → str.
Variable generate : WordCloud → str → result Image.
Variable plt : Pyplot.
Variable requests_get : str → result Response.

Definition main : M unit :=
  texts ← fetch_texts requests_get URL;
  generate_wordcloud parse generate plt texts DEFAULT_OUTPUT_PATH.

End WithLibraries.

End Script.

Import Script.

(** ** The filter as the specification words it *)

Module Spec.

(** The tab-separated fields of a line. *)
Definition fields (line : str) : list str := split TAB line.

(** Field 0, the surface word. *)
Definition word_of (line : str) : str := item 0 (fields line).

(** The first hyphen-delimited segment of a descriptor, taken
    unconditionally. *)
Definition first_segment (pos_info : str) : str :=
  item 0 (split HYPHEN pos_info).

(** A line is retained when it is not the end-of-output marker, not blank,
    has at least 5 fields, and the first segment of field 4 is one of the
    three labels. *)
Definition retained (line : str) : Prop :=
  line ≠ EOS ∧ line ≠ [] ∧ (5 ≤ length (fields line))%nat
  ∧ first_segment (item 4 (fields line)) ∈ KEPT_POS.

#[global] Instance retained_dec (line : str) : Decision (retained line).
Proof. unfold retained. apply _. Defined.

(** A line that is not malformed. *)
Definition well_formed (line : str) : Prop := (5 ≤ length (fields line))%nat.

#[global] Instance well_formed_dec (line : str) : Decision (well_formed line).
Proof. unfold well_formed. apply _. Defined.

Section WithTagger.

Variable parse : str → str.

(** The lines of the analysis of one text. *)
Definition lines_of (text : str) : list str := split NEWLINE (parse text).

(** The words of the retained lines, in the order of the texts and, in a
    text, of the lines. *)
Definition retained_words (strings : list str) : list str :=
  strings ≫= λ text, word_of <$> filter retained (lines_of text).

End WithTagger.

End Spec.

Import Spec.

(** ** Sample analyses *)

Module Samples.

(** A line of the tagger's output, written with [|] for the tab. *)
Definition tsv (line : string) : str :=
  (λ c, if decide (c = 124) then TAB else c) <$> decode line.

(** The output of the tagger: the lines, each ended by a newline. *)
Definition output (lines : list str) : str :=
  lines ≫= λ line, line ++ [NEWLINE].

Definition NEKO_GA_HASHIRU : str := Eval cbv in decode "猫が走る".
Definition NEKO : str := Eval cbv in decode "猫".
Definition HASHIRU : str := Eval cbv in decode "走る".

(** What unidic-lite gives for 猫が走る. *)
Definition neko_ga_hashiru_lines : list str := [
  tsv "猫|ネコ|ネコ|猫|名詞-普通名詞-一般|||1";
  tsv "が|ガ|ガ|が|助詞-格助詞|||";
  tsv "走る|ハシル|ハシル|走る|動詞-一般|五段-ラ行|終止形-一般|2";
  EOS
].

(** A tagger that knows one sentence. *)
Definition tagger (text : str) : str :=
  if decide (text = NEKO_GA_HASHIRU) then output neko_ga_hashiru_lines
  else output [EOS].

(** A line with three columns only. *)
Definition short_line : str := tsv "猫|ネコ|名詞".

(** A tagger whose only token is a space, tagged as a noun. *)
Definition space_tagger (text : str) : str :=
  output [tsv " ||| |名詞-普通名詞-一般"; EOS].

(** A renderer that gives one white pixel, and one that cannot draw. *)
Definition pixel_renderer (wc : WordCloud) (text : str) : result Image :=
  Ok [[(255, 255, 255)]].
Definition failing_renderer (wc : WordCloud) (text : str) : result Image :=
  Raise ValueError.

Definition empty_world : World := {| stdout := []; files := ∅; shown := [] |}.

(** A pyplot without a display: whatever is called raises. *)
Definition no_pyplot : Pyplot := {|
  plt_figure := λ _, raise OSError;
  plt_imshow := λ _ _, raise OSError;
  plt_axis := λ _, raise OSError;
  plt_tight_layout := λ _, raise OSError;
  plt_savefig := λ _ _ _, raise OSError;
  plt_show := raise OSError
|}.

(** A figure of one white pixel, and the file it makes. *)
Definition white_figure : Figure :=
  {| figsize := (10, 5)%Z; image := [[(255, 255, 255)]];
     interpolation := BILINEAR; axis := OFF; pad := 0 |}.
Definition white_file (d : Z) (bbox : str) : SavedFigure :=
  {| figure := white_figure; dpi := d; bbox_inches := bbox |}.

(** A pyplot for the samples, on a backend that opens no window: it refuses
    an image without a pixel, and saves (a white pixel, whatever was drawn)
    under the path it is given, with [.png] added to a path without a
    dot. *)
Definition sample_pyplot : Pyplot := {|
  plt_figure := λ _, ret tt;
  plt_imshow := λ wordcloud _,
    if decide (concat wordcloud = []) then raise TypeError else ret tt;
  plt_axis := λ _, ret tt;
  plt_tight_layout := λ _, ret tt;
  plt_savefig := λ path d bbox w,
    let name := if contains 46 path then path else path ++ decode ".png" in
    (Ok tt, {| stdout := stdout w;
               files := <[name := white_file d bbox]> (files w);
               shown := shown w |});
  plt_show := ret tt
|}.

End Samples.

Import Samples.

(** ** Sample replies of the endpoint *)

Module Replies.


(** A 200 reply with one text, a 404 reply, a 200 reply that is not JSON,
    a 200 reply whose body is [null]. *)
Definition one_text_reply : Response :=
  {| status_code := 200; json := Ok (PList [PStr NEKO_GA_HASHIRU]) |}.
Definition not_found_reply : Response :=
  {| status_code := 404; json := Raise JSONDecodeError |}.
Definition garbled_reply : Response :=
  {| status_code := 200; json := Raise JSONDecodeError |}.
Definition null_reply : Response :=
  {| status_code := 200; json := Ok PNone |}.

(** A world with a file already at the default path and one elsewhere. *)
Definition OTHER_PATH : str := Eval cbv in decode "notes.png".
Definition used_world : World :=
  {| stdout := [decode "hello"];
     files := {[ DEFAULT_OUTPUT_PATH := white_file 72 [];
                 OTHER_PATH := white_file 300 TIGHT ]};
     shown := [] |}.

End Replies.

Import Replies.

(** ** Facts about the string operations *)

Section StringFacts.

Implicit Types (c sep : char) (s : str).

Lemma split_length_pos sep s : (0 < length (split sep s))%nat.
Proof.
  induction s as [|c s IH]; simpl; [lia|].
  destruct (decide (c = sep)); simpl; [lia|].
  destruct (split sep s); simpl in *; lia.
Qed.

(** Without a separator there is one field, the string itself. *)
Lemma split_absent sep s : sep ∉ s → split sep s = [s].
Proof.
  induction s as [|c s IH]; intros Hnot; simpl; [done|].
  apply not_elem_of_cons in Hnot as [Hne Hrest].
  destruct (decide (c = sep)) as [->|_]; [done|].
  by rewrite IH.
Qed.

(** With a separator there are at least two fields. *)
Lemma split_present sep s : sep ∈ s → (2 ≤ length (split sep s))%nat.
Proof.
  induction s as [|c s IH]; intros Hin; [by apply elem_of_nil in Hin|].
  simpl. destruct (decide (c = sep)) as [->|Hne].
  - simpl. pose proof (split_length_pos sep s). lia.
  - apply elem_of_cons in Hin as [Heq|Hin]; [by subst|].
    specialize (IH Hin). destruct (split sep s); simpl in *; lia.
Qed.

Lemma item_lookup (i : nat) (parts : list str) :
  (i < length parts)%nat → parts !! i = Some (item i parts).
Proof.
  revert i. induction parts as [|p parts IH]; intros [|i] Hlt;
    simpl in *; try lia; [done|].
  apply IH. lia.
Qed.

Lemma lstrip_nil_iff s : lstrip s = [] ↔ Forall isspace s.
Proof.
  induction s as [|c s IH]; simpl; [by split|].
  destruct (isspace c) eqn:Hc.
  - rewrite IH. split; [intros H; constructor; [by rewrite Hc|done]|].
    by inversion 1.
  - split; [done|]. inversion 1 as [|? ? Hsp _]; subst.
    by rewrite Hc in Hsp.
Qed.

(** What [lstrip] leaves starts with a character that is not a space. *)
Lemma lstrip_head s c r : lstrip s = c :: r → isspace c = false.
Proof.
  induction s as [|d s IH]; simpl; [done|].
  destruct (isspace d) eqn:Hd; [done|]. by intros [= <- _].
Qed.

Lemma reverse_nil_iff {A} (l : list A) : reverse l = [] ↔ l = [].
Proof.
  split; [|by intros ->].
  intros H. apply (f_equal reverse) in H. by rewrite reverse_involutive in H.
Qed.

(** [text.strip()] is empty exactly when every character of [text] is
    white space (also when there is none). *)
Lemma strip_nil_iff s : strip s = [] ↔ Forall isspace s.
Proof.
  unfold strip, rstrip.
  rewrite reverse_nil_iff, lstrip_nil_iff, Forall_reverse.
  split.
  - intros Hall. apply lstrip_nil_iff.
    destruct (lstrip s) as [|c r] eqn:Hl; [done|].
    apply lstrip_head in Hl.
    inversion Hall as [|? ? Hsp _]; subst.
    by rewrite Hl in Hsp.
  - intros Hall. apply lstrip_nil_iff in Hall. by rewrite Hall.
Qed.

Lemma truthy_strip_false s : truthy (strip s) = false ↔ Forall isspace s.
Proof.
  rewrite <- strip_nil_iff. destruct (strip s); simpl; split; done.
Qed.

Lemma truthy_strip_true s :
  truthy (strip s) = true ↔ ∃ c, c ∈ s ∧ isspace c = false.
Proof.
  destruct (truthy (strip s)) eqn:Ht.
  - split; [intros _|done].
    destruct (decide (Forall isspace s)) as [Hall|Hnot].
    + apply truthy_strip_false in Hall. congruence.
    + apply (not_Forall_Exists _) in Hnot.
      apply Exists_exists in Hnot as (c & Hin & Hc).
      exists c. split; [done|]. simpl in Hc. by destruct (isspace c).
  - split; [done|]. intros (c & Hin & Hc).
    apply truthy_strip_false in Ht.
    rewrite Forall_forall in Ht. specialize (Ht c Hin).
    by rewrite Hc in Ht.
Qed.

End StringFacts.

Example split_fields : split HYPHEN (decode "a-b-") = [decode "a"; decode "b"; []].
Proof. reflexivity. Qed.

Example split_empty : split TAB [] = [[]].
Proof. reflexivity. Qed.

Example join_words : join [SPACE] [NEKO; HASHIRU] = decode "猫 走る".
Proof. reflexivity. Qed.

Example strip_both_ends : strip (decode "  a b " ++ [TAB]) = decode "a b".
Proof. reflexivity. Qed.

Example strip_ideographic_space : strip [12288; 32] = [].
Proof. reflexivity. Qed.

Example analyze_neko_ga_hashiru :
  analyze_strings tagger [NEKO_GA_HASHIRU] = [NEKO; HASHIRU].
Proof. vm_compute. reflexivity. Qed.

Example analyze_unknown : analyze_strings tagger [decode "abc"] = [].
Proof. vm_compute. reflexivity. Qed.

Example pos_of_plain : pos_of VERB = VERB.
Proof. reflexivity. Qed.

Example pos_of_detailed : pos_of (decode "動詞-一般") = VERB.
Proof. vm_compute. reflexivity. Qed.

(** ** The filter *)

Section LineFacts.

Implicit Types (line pos_info : str) (result_words : list str).

(** The conditional of the source and the unconditional first segment
    agree: without a hyphen the split has the descriptor as its only
    field. *)
Lemma pos_of_split pos_info : pos_of pos_info = item 0 (split HYPHEN pos_info).
Proof.
  unfold pos_of, contains. case_bool_decide as Hin; [done|].
  by rewrite split_absent.
Qed.

(** A line that passes the two guards has its fields 0 and 4. *)
Lemma analyze_line_indices line :
  (5 ≤ length (split TAB line))%nat →
  split TAB line !! 0%nat = Some (item 0 (split TAB line))
  ∧ split TAB line !! 4%nat = Some (item 4 (split TAB line)).
Proof. intros Hlen. split; apply item_lookup; lia. Qed.

(** The marker and the empty line have one field. *)
Lemma well_formed_not_marker line :
  well_formed line → line ≠ EOS ∧ line ≠ [].
Proof.
  unfold well_formed, fields. intros Hlen.
  split; intros ->; vm_compute in Hlen; lia.
Qed.

(** One turn of the inner loop appends the word of a retained line and
    nothing else. *)
Lemma analyze_line_spec result_words line :
  analyze_line result_words line
  = result_words ++ (if decide (retained line) then [word_of line] else []).
Proof.
  unfold analyze_line, retained, word_of, fields.
  rewrite pos_of_split. fold (first_segment (item 4 (split TAB line))).
  case_bool_decide as Heos; simpl.
  { rewrite decide_False by (by intros (? & _)). by rewrite app_nil_r. }
  case_bool_decide as Hnil; simpl.
  { rewrite decide_False by (by intros (_ & ? & _)). by rewrite app_nil_r. }
  destruct (length (split TAB line) <? 5)%nat eqn:Hlen.
  { apply Nat.ltb_lt in Hlen.
    rewrite decide_False by (intros (_ & _ & ? & _); lia).
    by rewrite app_nil_r. }
  apply Nat.ltb_ge in Hlen.
  case_bool_decide as Hpos.
  - by rewrite decide_True.
  - rewrite decide_False by (by intros (_ & _ & _ & ?)). by rewrite app_nil_r.
Qed.

Lemma analyze_line_short result_words line :
  ¬ well_formed line → analyze_line result_words line = result_words.
Proof.
  intros Hshort. rewrite analyze_line_spec.
  rewrite decide_False; [by rewrite app_nil_r|].
  intros (_ & _ & Hlen & _). by apply Hshort.
Qed.

Lemma analyze_lines_spec result_words (lines : list str) :
  foldl analyze_line result_words lines
  = result_words ++ (word_of <$> filter retained lines).
Proof.
  revert result_words.
  induction lines as [|line lines IH]; intros result_words; simpl.
  { by rewrite app_nil_r. }
  rewrite IH, analyze_line_spec, filter_cons.
  destruct (decide (retained line)); simpl.
  - by rewrite <- app_assoc.
  - by rewrite app_nil_r.
Qed.

(** The inner loop does not see the malformed lines. *)
Lemma analyze_lines_well_formed result_words (lines : list str) :
  foldl analyze_line result_words lines
  = foldl analyze_line result_words (filter well_formed lines).
Proof.
  revert result_words.
  induction lines as [|line lines IH]; intros result_words; simpl; [done|].
  rewrite filter_cons. destruct (decide (well_formed line)); simpl.
  - apply IH.
  - rewrite analyze_line_short by done. apply IH.
Qed.

End LineFacts.

Section AnalyzerFacts.

Variable parse : str → str.

Implicit Types (text : str) (strings result_words : list str).

Lemma analyze_text_spec result_words text :
  analyze_text parse result_words text
  = result_words ++ (word_of <$> filter retained (lines_of parse text)).
Proof. apply analyze_lines_spec. Qed.

Lemma analyze_texts_spec result_words strings :
  foldl (analyze_text parse) result_words strings
  = result_words ++ retained_words parse strings.
Proof.
  revert result_words.
  induction strings as [|text strings IH]; intros result_words; simpl.
  { by rewrite app_nil_r. }
  rewrite IH, analyze_text_spec. unfold retained_words. simpl.
  by rewrite <- app_assoc.
Qed.

Lemma analyze_strings_spec strings :
  analyze_strings parse strings = retained_words parse strings.
Proof. unfold analyze_strings. by rewrite analyze_texts_spec. Qed.

Lemma elem_of_retained_words (w : str) strings :
  w ∈ retained_words parse strings
  ↔ ∃ text line,
      text ∈ strings ∧ line ∈ lines_of parse text
      ∧ retained line ∧ w = word_of line.
Proof.
  unfold retained_words. rewrite list_elem_of_bind. split.
  - intros (text & Hw & Htext).
    apply list_elem_of_fmap in Hw as (line & -> & Hline).
    apply list_elem_of_filter in Hline as [Hret Hline].
    by exists text, line.
  - intros (text & line & Htext & Hline & Hret & ->).
    exists text. split; [|done].
    apply list_elem_of_fmap. exists line. split; [done|].
    by apply list_elem_of_filter.
Qed.

End AnalyzerFacts.

(** ** Rendering and fetching *)

Section RenderFacts.

Variable parse : str → str.
Variable generate : WordCloud → str → result Image.
Variable plt : Pyplot.

Implicit Types (strings : list str) (output_path : str) (w : World).

(** A list of strings is walked item by item, and no item is refused. *)
Lemma texts_of_strings strings : texts_of (PList (PStr <$> strings)) = Ok strings.
Proof.
  unfold texts_of. induction strings as [|text strings IH]; [done|].
  rewrite fmap_cons. cbn [all_str as_str]. by rewrite IH.
Qed.

(** The guard [if not text.strip()] taken: the message, and the return. *)
Lemma generate_wordcloud_blank strings output_path w :
  truthy (strip (join [SPACE] (analyze_strings parse strings))) = false →
  generate_wordcloud parse generate plt (PList (PStr <$> strings)) output_path w
  = print NO_WORDS w.
Proof.
  intros Hblank. unfold generate_wordcloud, mbind, M_bind, bind, lift.
  rewrite texts_of_strings. by rewrite Hblank.
Qed.

(** The guard passed: the renderer is called on the joined words. *)
Lemma generate_wordcloud_drawn strings output_path w :
  truthy (strip (join [SPACE] (analyze_strings parse strings))) = true →
  generate_wordcloud parse generate plt (PList (PStr <$> strings)) output_path w
  = (wordcloud ← lift (generate CLOUD (join [SPACE] (analyze_strings parse strings)));
     save_and_show plt wordcloud output_path) w.
Proof.
  intros Hdrawn. unfold generate_wordcloud at 1.
  unfold mbind at 1, M_bind at 1, bind at 1, lift at 1.
  rewrite texts_of_strings. by rewrite Hdrawn.
Qed.

End RenderFacts.

Section FetchFacts.

Variable requests_get : str → result Response.

Implicit Types (url : str) (response : Response) (w : World).

(** Status 200: what [response.json()] gives, as it is. *)
Lemma fetch_texts_200 url response w :
  requests_get url = Ok response →
  status_code response = 200%Z →
  fetch_texts requests_get url w = (json response, w).
Proof.
  intros Hget Hstatus. unfold fetch_texts, mbind, M_bind, bind, lift.
  by rewrite Hget, Hstatus.
Qed.

(** Any other status: the message, and the empty list. *)
Lemma fetch_texts_other url response w :
  requests_get url = Ok response →
  status_code response ≠ 200%Z →
  fetch_texts requests_get url w
  = (Ok (PList []), {| stdout := stdout w ++ [FAILED_PREFIX ++ url];
                       files := files w;
                       shown := shown w |}).
Proof.
  intros Hget Hstatus. unfold fetch_texts, mbind, M_bind, bind, lift.
  rewrite Hget. by apply Z.eqb_neq in Hstatus as ->.
Qed.

(** No response at all: the error of the client goes up. *)
Lemma fetch_texts_raises url e w :
  requests_get url = Raise e → fetch_texts requests_get url w = (Raise e, w).
Proof.
  intros Hget. unfold fetch_texts, mbind, M_bind, bind, lift.
  by rewrite Hget.
Qed.

End FetchFacts.

Example cloud_of_neko_ga_hashiru :
  generate_wordcloud tagger pixel_renderer sample_pyplot
    (PList [PStr NEKO_GA_HASHIRU]) (decode "out") empty_world
  = (Ok tt,
     {| stdout := [SAVED_PREFIX ++ decode "out" ++ SAVED_SUFFIX];
        files := {[ decode "out.png" := white_file 300 TIGHT ]};
        shown := [] |}).
Proof. vm_compute. reflexivity. Qed.

Example cloud_without_pixels :
  generate_wordcloud tagger (λ _ _, Ok []) sample_pyplot
    (PList [PStr NEKO_GA_HASHIRU]) DEFAULT_OUTPUT_PATH empty_world
  = (Raise TypeError, empty_world).
Proof. vm_compute. reflexivity. Qed.

Example cloud_of_none_item :
  generate_wordcloud tagger pixel_renderer sample_pyplot
    (PList [PStr NEKO_GA_HASHIRU; PNone]) DEFAULT_OUTPUT_PATH empty_world
  = (Raise AttributeError, empty_world).
Proof. reflexivity. Qed.

Example cloud_of_number :
  generate_wordcloud tagger pixel_renderer sample_pyplot (PInt 3)
    DEFAULT_OUTPUT_PATH empty_world
  = (Raise TypeError, empty_world).
Proof. reflexivity. Qed.

(** ** The properties of the specification *)

(** C1. For every analyzer output, the result of [analyze_strings] is the
    list of the words (field 0) of the retained lines, and a word is in it
    iff it is field 0 of a line that is not the end-of-output marker, not
    blank, has at least 5 tab-separated fields, and whose field 4 has as
    first hyphen-delimited segment one of 名詞, 動詞, 形容詞. *)
Theorem analyze_strings_retained (parse : str → str) (strings : list str) :
  analyze_strings parse strings
  = (strings ≫= λ text,
       word_of <$> filter retained (split NEWLINE (parse text)))
  ∧ ∀ w : str,
      w ∈ analyze_strings parse strings
      ↔ ∃ text line,
          text ∈ strings ∧ line ∈ split NEWLINE (parse text)
          ∧ (line ≠ EOS ∧ line ≠ []
             ∧ (5 ≤ length (split TAB line))%nat
             ∧ first_segment (item 4 (split TAB line)) ∈ [NOUN; VERB; ADJECTIVE])
          ∧ w = item 0 (split TAB line).
Proof.
  split; [apply analyze_strings_spec|].
  intros w. rewrite analyze_strings_spec. apply elem_of_retained_words.
Qed.

(** C4. A line with fewer than 5 tab-separated fields is excluded: it leaves
    the list of words as it is, the result is the one obtained with all such
    lines deleted from the analyzer's output, and every word of the result
    is field 0 of a line with at least 5 fields. *)
Theorem analyze_strings_skips_malformed (parse : str → str) (strings : list str) :
  (∀ (result_words : list str) (line : str),
      (length (split TAB line) < 5)%nat →
      analyze_line result_words line = result_words)
  ∧ analyze_strings parse strings
    = (strings ≫= λ text,
         foldl analyze_line []
           (filter (λ line, (5 ≤ length (split TAB line))%nat)
                   (split NEWLINE (parse text))))
  ∧ ∀ w : str,
      w ∈ analyze_strings parse strings →
      ∃ text line,
        text ∈ strings ∧ line ∈ split NEWLINE (parse text)
        ∧ (5 ≤ length (split TAB line))%nat
        ∧ w = item 0 (split TAB line).
Proof.
  split; [|split].
  - intros result_words line Hlen. apply analyze_line_short.
    unfold well_formed, fields. lia.
  - rewrite analyze_strings_spec. unfold retained_words.
    apply list_bind_ext; [|done]. intros text.
    pose proof (analyze_lines_well_formed [] (lines_of parse text)) as Hwf.
    rewrite analyze_lines_spec in Hwf. exact Hwf.
  - intros w Hw. rewrite analyze_strings_spec in Hw.
    apply elem_of_retained_words in Hw
      as (text & line & Htext & Hline & (_ & _ & Hlen & _) & ->).
    by exists text, line.
Qed.

Lemma analyze_strings_skips_malformed_witness :
  (length (split TAB short_line) < 5)%nat
  ∧ analyze_line [HASHIRU] short_line = [HASHIRU].
Proof.
  assert (Hlen : (length (split TAB short_line) < 5)%nat) by (vm_compute; lia).
  split; [exact Hlen|].
  exact (proj1 (analyze_strings_skips_malformed tagger [NEKO_GA_HASHIRU])
           [HASHIRU] short_line Hlen).
Defined.

(** C5. [analyze_strings] is order-preserving: on a concatenation of two
    input lists it gives the words of the first followed by the words of the
    second, the analyzer being a fixed function. *)
Theorem analyze_strings_app (parse : str → str) (xs ys : list str) :
  analyze_strings parse (xs ++ ys)
  = analyze_strings parse xs ++ analyze_strings parse ys.
Proof.
  unfold analyze_strings. rewrite foldl_app.
  rewrite (analyze_texts_spec parse (foldl _ _ xs) ys).
  by rewrite (analyze_texts_spec parse [] ys).
Qed.

(** C6. For the input [["猫が走る"]]: if the analyzer emits a line with at
    least 5 tab-separated fields, whose field 0 is 走る and whose field 4
    has 動詞 as first hyphen-delimited segment, then 走る is in the result
    of [analyze_strings]. *)
Theorem analyze_strings_keeps_hashiru (parse : str → str) (line : str) :
  line ∈ split NEWLINE (parse NEKO_GA_HASHIRU) →
  (5 ≤ length (split TAB line))%nat →
  item 0 (split TAB line) = HASHIRU →
  first_segment (item 4 (split TAB line)) = VERB →
  HASHIRU ∈ analyze_strings parse [NEKO_GA_HASHIRU].
Proof.
  intros Hline Hlen Hword Hpos.
  rewrite analyze_strings_spec. apply elem_of_retained_words.
  exists NEKO_GA_HASHIRU, line.
  destruct (well_formed_not_marker line Hlen) as [Heos Hnil].
  split; [apply list_elem_of_here|]. split; [done|]. split; [|done].
  unfold retained, fields. rewrite Hpos.
  repeat split; try done. unfold KEPT_POS.
  apply list_elem_of_further, list_elem_of_here.
Qed.

Lemma analyze_strings_keeps_hashiru_witness :
  HASHIRU ∈ analyze_strings tagger [NEKO_GA_HASHIRU].
Proof.
  apply (analyze_strings_keeps_hashiru tagger
           (tsv "走る|ハシル|ハシル|走る|動詞-一般|五段-ラ行|終止形-一般|2")).
  - vm_compute. do 2 apply list_elem_of_further. apply list_elem_of_here.
  - vm_compute. lia.
  - vm_compute. reflexivity.
  - vm_compute. reflexivity.
Defined.

(** C8. Taking the first hyphen-delimited segment only when the descriptor
    contains a hyphen, and the whole descriptor otherwise, is the same as
    taking the first element of the descriptor split on hyphens, for every
    string. *)
Theorem pos_of_first_segment (pos_info : str) :
  pos_of pos_info = first_segment pos_info.
Proof. apply pos_of_split. Qed.

(** C2. For every URL, when the response to the GET has a status other than
    200, [fetch_texts] prints the failure message for that URL and returns
    the empty list. *)
Theorem fetch_texts_not_200
    (requests_get : str → result Response) (url : str)
    (response : Response) (w : World) :
  requests_get url = Ok response →
  status_code response ≠ 200%Z →
  fetch_texts requests_get url w
  = (Ok (PList []),
     {| stdout := stdout w ++ [decode "Failed to fetch data from " ++ url];
        files := files w;
        shown := shown w |}).
Proof. apply fetch_texts_other. Qed.

Lemma fetch_texts_not_200_witness :
  fetch_texts (λ _, Ok {| status_code := 404; json := Raise JSONDecodeError |})
    URL empty_world
  = (Ok (PList []),
     {| stdout := [decode "Failed to fetch data from " ++ URL];
        files := ∅;
        shown := [] |}).
Proof.
  apply (fetch_texts_not_200
           (λ _, Ok {| status_code := 404; json := Raise JSONDecodeError |})
           URL {| status_code := 404; json := Raise JSONDecodeError |}
           empty_world).
  - reflexivity.
  - simpl. lia.
Defined.

(** C3. For every list of input strings, when [analyze_strings] leaves no
    word, [generate_wordcloud] prints its message and returns: whatever the
    renderer is, the files are what they were, at the output path as
    everywhere else, and no figure is shown. *)
Theorem generate_wordcloud_no_words
    (parse : str → str) (generate : WordCloud → str → result Image)
    (plt : Pyplot)
    (strings : list str) (output_path : str) (w : World) :
  analyze_strings parse strings = [] →
  generate_wordcloud parse generate plt (PList (PStr <$> strings)) output_path w
  = (Ok tt, {| stdout := stdout w ++ [NO_WORDS];
               files := files w;
               shown := shown w |})
  ∧ files (generate_wordcloud parse generate plt (PList (PStr <$> strings))
             output_path w).2 !! output_path
    = files w !! output_path.
Proof.
  intros Hwords.
  assert (generate_wordcloud parse generate plt (PList (PStr <$> strings))
            output_path w = print NO_WORDS w) as ->.
  { apply generate_wordcloud_blank. by rewrite Hwords. }
  done.
Qed.

Lemma generate_wordcloud_no_words_witness :
  generate_wordcloud tagger failing_renderer no_pyplot
    (PList [PStr (decode "abc")])
    DEFAULT_OUTPUT_PATH empty_world
  = (Ok tt, {| stdout := [NO_WORDS]; files := ∅; shown := [] |}).
Proof.
  apply (generate_wordcloud_no_words tagger failing_renderer no_pyplot
           [decode "abc"]
           DEFAULT_OUTPUT_PATH empty_world).
  vm_compute. reflexivity.
Defined.

(** C7, as the specification states it, fails: a word list that is not empty
    can be all white space, and then the renderer is not called.  Here the
    only word is a space; a renderer that raises whenever it is called is
    never reached, the message is printed and the call returns. *)
Lemma generate_wordcloud_nonempty_not_drawn :
  analyze_strings space_tagger [[]] = [[SPACE]]
  ∧ analyze_strings space_tagger [[]] ≠ []
  ∧ generate_wordcloud space_tagger failing_renderer no_pyplot
      (PList [PStr []])
      DEFAULT_OUTPUT_PATH empty_world
    = (Ok tt, {| stdout := [NO_WORDS]; files := ∅; shown := [] |})
  ∧ generate_wordcloud space_tagger failing_renderer no_pyplot
      (PList [PStr []])
      DEFAULT_OUTPUT_PATH empty_world
    ≠ (wordcloud ← lift (failing_renderer CLOUD
                           (join [SPACE] (analyze_strings space_tagger [[]])));
       save_and_show no_pyplot wordcloud DEFAULT_OUTPUT_PATH) empty_world.
Proof.
  split; [by vm_compute|]. split; [by vm_compute|].
  split; [by vm_compute|]. by vm_compute.
Qed.

(** C7, amended. For every filtered word list whose space-joined text has a
    character that is not white space, [generate_wordcloud] calls the
    renderer on exactly the words joined with single spaces, with a layout
    of width 1920, height 1080 and at most 100 words; what the renderer
    gives or raises is what the rest of the call goes on with. *)
Theorem generate_wordcloud_drawn_with
    (parse : str → str) (generate : WordCloud → str → result Image)
    (plt : Pyplot)
    (strings : list str) (output_path : str) (w : World) :
  (∃ c, c ∈ join [SPACE] (analyze_strings parse strings) ∧ isspace c = false) →
  generate_wordcloud parse generate plt (PList (PStr <$> strings)) output_path w
  = (wordcloud ← lift (generate CLOUD
                         (join [SPACE] (analyze_strings parse strings)));
     save_and_show plt wordcloud output_path) w
  ∧ width CLOUD = 1920%Z ∧ height CLOUD = 1080%Z ∧ max_words CLOUD = 100%Z.
Proof.
  intros Hchar. split; [|done].
  apply generate_wordcloud_drawn. by apply truthy_strip_true.
Qed.

Lemma generate_wordcloud_drawn_with_witness :
  generate_wordcloud tagger failing_renderer no_pyplot
    (PList [PStr NEKO_GA_HASHIRU])
    DEFAULT_OUTPUT_PATH empty_world
  = (Raise ValueError, empty_world).
Proof.
  refine (proj1 (generate_wordcloud_drawn_with tagger failing_renderer no_pyplot
                   [NEKO_GA_HASHIRU] DEFAULT_OUTPUT_PATH empty_world _)).
  exists 29483. split; [|reflexivity].
  vm_compute. apply list_elem_of_here.
Defined.

(** C9. On a 200 response [fetch_texts] returns what [response.json()]
    gives, unchanged and unchecked, whatever it is, and prints nothing; the
    script hands that value to [generate_wordcloud] as it is.  And there is
    a 200 response whose body is valid JSON and not an array of strings (an
    object, here): [fetch_texts] returns that value, which is no list, and
    the script passes it on. *)
Theorem fetch_texts_unvalidated :
  (∀ (requests_get : str → result Response) (url : str)
     (response : Response) (w : World),
      requests_get url = Ok response →
      status_code response = 200%Z →
      fetch_texts requests_get url w = (json response, w))
  ∧ (∀ (parse : str → str) (generate : WordCloud → str → result Image)
       (plt : Pyplot)
       (requests_get : str → result Response)
       (response : Response) (v : pyval) (w : World),
        requests_get URL = Ok response →
        status_code response = 200%Z →
        json response = Ok v →
        main parse generate plt requests_get w
        = generate_wordcloud parse generate plt v DEFAULT_OUTPUT_PATH w)
  ∧ ∃ (response : Response) (v : pyval),
      status_code response = 200%Z
      ∧ json response = Ok v
      ∧ (∀ items, v ≠ PList items)
      ∧ ∀ (parse : str → str) (generate : WordCloud → str → result Image)
          (plt : Pyplot)
          (url : str) (w : World),
          fetch_texts (λ _, Ok response) url w = (Ok v, w)
          ∧ main parse generate plt (λ _, Ok response) w
            = generate_wordcloud parse generate plt v DEFAULT_OUTPUT_PATH w.
Proof.
  assert (Hmain : ∀ parse generate plt requests_get response v w,
             requests_get URL = Ok response →
             status_code response = 200%Z →
             json response = Ok v →
             main parse generate plt requests_get w
             = generate_wordcloud parse generate plt v DEFAULT_OUTPUT_PATH w).
  { intros parse generate plt requests_get response v w Hget Hstatus Hjson.
    unfold main. unfold mbind at 1, M_bind at 1, bind at 1.
    by rewrite (fetch_texts_200 _ URL response w Hget Hstatus), Hjson. }
  split; [apply fetch_texts_200|]. split; [exact Hmain|].
  exists {| status_code := 200;
            json := Ok (PDict [(decode "error", PStr (decode "no events"))]) |}.
  exists (PDict [(decode "error", PStr (decode "no events"))]).
  split; [done|]. split; [done|]. split; [done|].
  intros parse generate plt url w.
  set (v := PDict _).
  set (response := {| status_code := 200; json := Ok v |}).
  split.
  - by apply (fetch_texts_200 _ url response).
  - by apply (Hmain _ _ _ _ response).
Qed.

Lemma fetch_texts_unvalidated_witness :
  fetch_texts
    (λ _, Ok {| status_code := 200;
                json := Ok (PDict [(decode "error", PInt 500)]) |})
    URL empty_world
  = (Ok (PDict [(decode "error", PInt 500)]), empty_world).
Proof.
  apply (proj1 fetch_texts_unvalidated
           (λ _, Ok {| status_code := 200;
                       json := Ok (PDict [(decode "error", PInt 500)]) |})
           URL
           {| status_code := 200;
              json := Ok (PDict [(decode "error", PInt 500)]) |}
           empty_world).
  - reflexivity.
  - reflexivity.
Defined.

(** C10. [generate_wordcloud] skips the rendering whenever the space-joined
    text is empty or all white space, and that is more than the empty word
    set: there is a word list that is not empty, all of whose words are
    white space, for which the message is printed, no file is written and
    no renderer is called. *)
Theorem generate_wordcloud_skips_blank :
  (∀ (parse : str → str) (generate : WordCloud → str → result Image)
     (plt : Pyplot)
     (strings : list str) (output_path : str) (w : World),
      Forall isspace (join [SPACE] (analyze_strings parse strings)) →
      generate_wordcloud parse generate plt (PList (PStr <$> strings))
        output_path w
      = (Ok tt, {| stdout := stdout w ++ [NO_WORDS];
                   files := files w;
                   shown := shown w |}))
  ∧ ∃ (parse : str → str) (strings : list str),
      analyze_strings parse strings ≠ []
      ∧ Forall (Forall isspace) (analyze_strings parse strings)
      ∧ ∀ (generate : WordCloud → str → result Image) (plt : Pyplot)
          (output_path : str) (w : World),
          generate_wordcloud parse generate plt (PList (PStr <$> strings))
            output_path w
          = (Ok tt, {| stdout := stdout w ++ [NO_WORDS];
                       files := files w;
                       shown := shown w |}).
Proof.
  split.
  - intros parse generate plt strings output_path w Hblank.
    apply truthy_strip_false in Hblank.
    by rewrite generate_wordcloud_blank.
  - exists space_tagger, [[]].
    split; [by vm_compute|]. split.
    + assert (analyze_strings space_tagger [[]] = [[SPACE]]) as ->
        by (by vm_compute).
      by repeat constructor.
    + intros generate plt output_path w.
      by rewrite generate_wordcloud_blank by (by vm_compute).
Qed.

Lemma generate_wordcloud_skips_blank_witness :
  generate_wordcloud space_tagger failing_renderer no_pyplot (PList [PStr []])
    DEFAULT_OUTPUT_PATH empty_world
  = (Ok tt, {| stdout := [NO_WORDS]; files := ∅; shown := [] |}).
Proof.
  apply (proj1 generate_wordcloud_skips_blank space_tagger failing_renderer
           no_pyplot
           [[]] DEFAULT_OUTPUT_PATH empty_world).
  assert (join [SPACE] (analyze_strings space_tagger [[]]) = [SPACE]) as ->
    by (by vm_compute).
  by repeat constructor.
Defined.

(** ** More about the code: fields, columns and words *)

Section FieldFacts.

Implicit Types (c sep : char) (s field : str) (parts : list str).

(** A separator after a stretch without one ends the first field. *)
Lemma split_app_sep sep s s' :
  sep ∉ s → split sep (s ++ sep :: s') = s :: split sep s'.
Proof.
  induction s as [|c s IH]; intros Hnot; simpl.
  { by rewrite decide_True. }
  apply not_elem_of_cons in Hnot as [Hne Hnot].
  rewrite decide_False by done. by rewrite IH.
Qed.

Lemma split_of_join sep parts :
  parts ≠ [] → Forall (λ field, sep ∉ field) parts →
  split sep (join [sep] parts) = parts.
Proof.
  induction parts as [|field parts IH]; intros Hne Hall; [done|].
  apply Forall_cons in Hall as [Hfield Hall].
  destruct parts as [|field' parts]; simpl.
  { by apply split_absent. }
  rewrite split_app_sep by done. f_equal. by apply IH.
Qed.

Lemma join_of_split sep s : join [sep] (split sep s) = s.
Proof.
  induction s as [|c s IH]; [done|]. simpl.
  pose proof (split_length_pos sep s) as Hpos.
  destruct (decide (c = sep)) as [->|Hne].
  - destruct (split sep s) as [|field parts] eqn:Hsplit; simpl in *; [lia|].
    by rewrite IH.
  - destruct (split sep s) as [|field parts] eqn:Hsplit; simpl in *; [lia|].
    destruct parts; simpl in *; by rewrite <- IH.
Qed.

(** No field holds the separator. *)
Lemma split_field_no_sep sep s field : field ∈ split sep s → sep ∉ field.
Proof.
  revert field. induction s as [|c s IH]; intros field Hin; simpl in Hin.
  { apply list_elem_of_singleton in Hin as ->. apply not_elem_of_nil. }
  destruct (decide (c = sep)) as [->|Hne].
  - apply elem_of_cons in Hin as [->|Hin]; [apply not_elem_of_nil|by apply IH].
  - destruct (split sep s) as [|field' parts] eqn:Hsplit.
    + apply list_elem_of_singleton in Hin as ->.
      apply not_elem_of_cons. split; [done|apply not_elem_of_nil].
    + apply elem_of_cons in Hin as [->|Hin].
      * apply not_elem_of_cons. split; [done|].
        apply IH, list_elem_of_here.
      * by apply IH, list_elem_of_further.
Qed.

(** A field holds characters of the string only. *)
Lemma split_field_chars sep s field c : field ∈ split sep s → c ∈ field → c ∈ s.
Proof.
  revert field. induction s as [|d s IH]; intros field Hin Hc; simpl in Hin.
  { by apply list_elem_of_singleton in Hin as ->. }
  destruct (decide (d = sep)) as [->|Hne].
  - apply elem_of_cons in Hin as [->|Hin]; [by apply elem_of_nil in Hc|].
    apply list_elem_of_further. by apply (IH field).
  - destruct (split sep s) as [|field' parts] eqn:Hsplit.
    + apply list_elem_of_singleton in Hin as ->.
      apply list_elem_of_singleton in Hc as ->. apply list_elem_of_here.
    + apply elem_of_cons in Hin as [->|Hin].
      * apply elem_of_cons in Hc as [->|Hc]; [apply list_elem_of_here|].
        apply list_elem_of_further, (IH field'); [apply list_elem_of_here|done].
      * apply list_elem_of_further, (IH field); [|done].
        by apply list_elem_of_further.
Qed.

Lemma first_field_in_split sep s : item 0 (split sep s) ∈ split sep s.
Proof.
  pose proof (split_length_pos sep s).
  destruct (split sep s); simpl in *; [lia|apply list_elem_of_here].
Qed.

(** The joined text is blank exactly when every word is. *)
Lemma join_blank (words : list str) :
  Forall isspace (join [SPACE] words) ↔ Forall (Forall isspace) words.
Proof.
  induction words as [|word words IH]; simpl.
  { split; constructor. }
  destruct words as [|word' words].
  - split; [by repeat constructor|by inversion 1].
  - rewrite (Forall_cons _ word), <- IH, Forall_app, (Forall_cons _ SPACE).
    split.
    + by intros (? & _ & ?).
    + intros [? ?]. by repeat split.
Qed.

(** The first guard of the loop is implied by the second: the marker and
    the empty line have a single field. *)
Lemma retained_iff line :
  retained line
  ↔ (5 ≤ length (split TAB line))%nat
    ∧ first_segment (item 4 (split TAB line)) ∈ KEPT_POS.
Proof.
  unfold retained, fields. split.
  - by intros (_ & _ & ? & ?).
  - intros [Hlen Hpos]. destruct (well_formed_not_marker line Hlen). done.
Qed.

End FieldFacts.

(** ** More about the code: the calls, case by case *)

Section PipelineFacts.

Variable parse : str → str.
Variable generate : WordCloud → str → result Image.
Variable plt : Pyplot.
Variable requests_get : str → result Response.

Implicit Types (strings : pyval) (output_path url : str) (w : World).

(** The four ways through [generate_wordcloud]. *)
Lemma generate_wordcloud_cases strings output_path w :
  generate_wordcloud parse generate plt strings output_path w
  = match texts_of strings with
    | Raise e => (Raise e, w)
    | Ok texts =>
        let text := join [SPACE] (analyze_strings parse texts) in
        if truthy (strip text) then
          match generate CLOUD text with
          | Ok wordcloud => save_and_show plt wordcloud output_path w
          | Raise e => (Raise e, w)
          end
        else print NO_WORDS w
    end.
Proof.
  unfold generate_wordcloud, mbind, M_bind, bind, lift.
  destruct (texts_of strings) as [texts|e]; [|done]. simpl.
  destruct (truthy _); simpl; [|done].
  by destruct (generate CLOUD _).
Qed.

(** The three ways through [fetch_texts]. *)
Lemma fetch_texts_cases url w :
  fetch_texts requests_get url w
  = match requests_get url with
    | Raise e => (Raise e, w)
    | Ok response =>
        if (status_code response =? 200)%Z then (json response, w)
        else (Ok (PList []),
              {| stdout := stdout w ++ [FAILED_PREFIX ++ url];
                 files := files w;
                 shown := shown w |})
    end.
Proof.
  unfold fetch_texts, mbind, M_bind, bind, lift.
  destruct (requests_get url) as [response|e]; [|done].
  by destruct (status_code response =? 200)%Z.
Qed.

Lemma main_cases w :
  main parse generate plt requests_get w
  = match fetch_texts requests_get URL w with
    | (Ok texts, w') =>
        generate_wordcloud parse generate plt texts DEFAULT_OUTPUT_PATH w'
    | (Raise e, w') => (Raise e, w')
    end.
Proof. reflexivity. Qed.

Lemma fetch_texts_keeps url w :
  files (fetch_texts requests_get url w).2 = files w
  ∧ shown (fetch_texts requests_get url w).2 = shown w
  ∧ (stdout (fetch_texts requests_get url w).2 = stdout w
     ∨ stdout (fetch_texts requests_get url w).2
       = stdout w ++ [FAILED_PREFIX ++ url]).
Proof.
  rewrite fetch_texts_cases.
  destruct (requests_get url) as [response|e]; [|by auto].
  destruct (status_code response =? 200)%Z; simpl; by auto.
Qed.

End PipelineFacts.

(** ** Further properties of the code *)

(** A line of tab-joined columns is read back column by column. *)
Lemma analyze_joined_line (result_words : list str) (columns : list str) :
  Forall (λ column, TAB ∉ column) columns →
  (5 ≤ length columns)%nat →
  analyze_line result_words (join [TAB] columns)
  = if decide (first_segment (item 4 columns) ∈ KEPT_POS)
    then result_words ++ [item 0 columns]
    else result_words.
Proof.
  intros Hclean Hlen. rewrite analyze_line_spec.
  assert (Hsplit : split TAB (join [TAB] columns) = columns).
  { apply split_of_join; [|done]. intros ->. simpl in Hlen. lia. }
  unfold word_of, fields.
  destruct (decide (retained _)) as [Hret|Hnot].
  - apply retained_iff in Hret as [_ Hpos]. rewrite Hsplit in *.
    by rewrite decide_True.
  - rewrite decide_False; [by rewrite app_nil_r|].
    intros Hpos. apply Hnot, retained_iff. by rewrite Hsplit.
Qed.

(** X1. The test of the end-of-output marker and of the empty line changes
    nothing: for every line, the loop body appends field 0 exactly when the
    line has at least 5 tab-separated fields and the first hyphen-delimited
    segment of field 4 is one of the three labels. *)
Theorem analyze_line_one_guard (result_words : list str) (line : str) :
  analyze_line result_words line
  = if decide ((5 ≤ length (split TAB line))%nat
               ∧ first_segment (item 4 (split TAB line)) ∈ [NOUN; VERB; ADJECTIVE])
    then result_words ++ [item 0 (split TAB line)]
    else result_words.
Proof.
  rewrite analyze_line_spec.
  destruct (decide (retained line)) as [Hret|Hnot];
    destruct (decide (_ ∧ _)) as [Hcols|Hncols]; try done.
  - by apply retained_iff in Hret.
  - by apply retained_iff in Hcols.
  - by rewrite app_nil_r.
Qed.

(** X2. A line made of at least 5 columns joined with tabs, none of which
    holds a tab, is judged on its columns: the loop body appends column 0
    when the first hyphen-delimited segment of column 4 is one of the three
    labels, and nothing otherwise; the other columns play no part. *)
Theorem analyze_line_columns (result_words : list str) (columns : list str) :
  Forall (λ column, TAB ∉ column) columns →
  (5 ≤ length columns)%nat →
  analyze_line result_words (join [TAB] columns)
  = if decide (first_segment (item 4 columns) ∈ [NOUN; VERB; ADJECTIVE])
    then result_words ++ [item 0 columns]
    else result_words.
Proof. apply analyze_joined_line. Qed.

Lemma analyze_line_columns_witness :
  analyze_line [NEKO]
    (tsv "走る|ハシル|ハシル|走る|動詞-一般|五段-ラ行|終止形-一般|2")
  = [NEKO; HASHIRU].
Proof.
  refine (analyze_line_columns [NEKO]
            (decode <$> ["走る"; "ハシル"; "ハシル"; "走る"; "動詞-一般";
                         "五段-ラ行"; "終止形-一般"; "2"]%string) _ _).
  - apply (bool_decide_unpack _). vm_compute. reflexivity.
  - vm_compute. lia.
Defined.

(** X3. What follows the first hyphen of the part-of-speech column never
    matters: a line of tab-joined columns whose column 4 is one of the three
    labels followed by a hyphen and anything at all has its column 0
    appended.  (So 動詞-非自立可能 is kept like 動詞-一般.) *)
Theorem analyze_line_subcategory
    (result_words : list str) (columns : list str) (label rest : str) :
  Forall (λ column, TAB ∉ column) columns →
  columns !! 4%nat = Some (label ++ HYPHEN :: rest) →
  label ∈ [NOUN; VERB; ADJECTIVE] →
  analyze_line result_words (join [TAB] columns)
  = result_words ++ [item 0 columns].
Proof.
  intros Hclean Hpos Hlabel.
  assert (Hlen : (5 ≤ length columns)%nat).
  { apply lookup_lt_Some in Hpos. lia. }
  rewrite analyze_joined_line by done.
  assert (Hitem : item 4 columns = label ++ HYPHEN :: rest).
  { pose proof (item_lookup 4 columns) as Hl.
    rewrite Hpos in Hl. symmetry. apply (inj Some), Hl. lia. }
  assert (Hplain : HYPHEN ∉ label).
  { repeat (apply elem_of_cons in Hlabel as [->|Hlabel];
            [by apply (bool_decide_unpack _)|]).
    by apply elem_of_nil in Hlabel. }
  rewrite decide_True; [done|].
  unfold first_segment. rewrite Hitem, split_app_sep by done. done.
Qed.

Lemma analyze_line_subcategory_witness :
  analyze_line []
    (join [TAB] (decode <$> ["いる"; "イル"; "イル"; "居る";
                             "動詞-非自立可能"; "上一段-ア行"]%string))
  = [decode "いる"].
Proof.
  refine (analyze_line_subcategory []
            (decode <$> ["いる"; "イル"; "イル"; "居る";
                         "動詞-非自立可能"; "上一段-ア行"]%string)
            VERB (decode "非自立可能") _ _ _).
  - apply (bool_decide_unpack _). vm_compute. reflexivity.
  - vm_compute. reflexivity.
  - apply (bool_decide_unpack _). vm_compute. reflexivity.
Defined.

(** X4. No word of the result holds a tab or a newline: a word is a
    tab-separated field of a newline-separated line. *)
Theorem analyze_strings_words_clean
    (parse : str → str) (strings : list str) (word : str) :
  word ∈ analyze_strings parse strings →
  (TAB ∉ word) ∧ (NEWLINE ∉ word).
Proof.
  intros Hword. rewrite analyze_strings_spec in Hword.
  apply elem_of_retained_words in Hword
    as (text & line & _ & Hline & _ & ->).
  unfold word_of, fields.
  pose proof (first_field_in_split TAB line) as Hfield.
  split.
  - by apply (split_field_no_sep TAB line).
  - intros Hnl. apply (split_field_no_sep NEWLINE (parse text) line Hline).
    by apply (split_field_chars TAB line (item 0 (split TAB line))).
Qed.

Lemma analyze_strings_words_clean_witness :
  (TAB ∉ HASHIRU) ∧ (NEWLINE ∉ HASHIRU).
Proof.
  apply (analyze_strings_words_clean tagger [NEKO_GA_HASHIRU] HASHIRU).
  apply (bool_decide_unpack _). vm_compute. reflexivity.
Defined.

(** X5. On a 200 response [fetch_texts] gives what [response.json()] gives,
    the decoded value or the decoding error, prints nothing and leaves the
    world as it was. *)
Theorem fetch_texts_ok_verbatim
    (requests_get : str → result Response) (url : str)
    (response : Response) (w : World) :
  requests_get url = Ok response →
  status_code response = 200%Z →
  fetch_texts requests_get url w = (json response, w).
Proof.
  intros Hget Hstatus. rewrite fetch_texts_cases, Hget.
  by apply Z.eqb_eq in Hstatus as ->.
Qed.

Lemma fetch_texts_ok_verbatim_witness :
  fetch_texts (λ _, Ok garbled_reply) URL used_world
  = (Raise JSONDecodeError, used_world).
Proof.
  apply (fetch_texts_ok_verbatim (λ _, Ok garbled_reply) URL garbled_reply
           used_world).
  - reflexivity.
  - reflexivity.
Defined.

(** X6. Whatever the client answers, [fetch_texts] writes no file and shows
    no figure, and prints nothing or the one failure line for its URL. *)
Theorem fetch_texts_touches_nothing
    (requests_get : str → result Response) (url : str) (w : World) :
  files (fetch_texts requests_get url w).2 = files w
  ∧ shown (fetch_texts requests_get url w).2 = shown w
  ∧ (stdout (fetch_texts requests_get url w).2 = stdout w
     ∨ stdout (fetch_texts requests_get url w).2
       = stdout w ++ [decode "Failed to fetch data from " ++ url]).
Proof. apply fetch_texts_keeps. Qed.

(** X7. [fetch_texts] raises nothing of its own: when it raises, the error
    is the one of [requests.get], or the one of [response.json()] on a 200
    response, and nothing was printed.  A status other than 200 never
    raises. *)
Theorem fetch_texts_raises_from_library
    (requests_get : str → result Response) (url : str)
    (e : exn) (w w' : World) :
  fetch_texts requests_get url w = (Raise e, w') →
  w' = w
  ∧ (requests_get url = Raise e
     ∨ ∃ response,
         requests_get url = Ok response
         ∧ status_code response = 200%Z
         ∧ json response = Raise e).
Proof.
  rewrite fetch_texts_cases.
  destruct (requests_get url) as [response|e0].
  - destruct (status_code response =? 200)%Z eqn:Hstatus; [|done].
    intros [= Hjson <-]. split; [done|]. right. exists response.
    by apply Z.eqb_eq in Hstatus.
  - intros [= <- <-]. by auto.
Qed.

Lemma fetch_texts_raises_from_library_witness :
  used_world = used_world
  ∧ ((λ _ : str, Ok garbled_reply) URL = Raise JSONDecodeError
     ∨ ∃ response,
         (λ _ : str, Ok garbled_reply) URL = Ok response
         ∧ status_code response = 200%Z
         ∧ json response = Raise JSONDecodeError).
Proof.
  apply (fetch_texts_raises_from_library (λ _, Ok garbled_reply) URL
           JSONDecodeError used_world used_world).
  reflexivity.
Defined.




(** X9. When the joined words are not blank and the renderer raises, the
    error goes up and nothing has happened: no file, no figure, no line. *)
Theorem generate_wordcloud_renderer_raises
    (parse : str → str) (generate : WordCloud → str → result Image)
    (plt : Pyplot)
    (strings : list str) (output_path : str) (w : World) (e : exn) :
  (∃ c, c ∈ join [SPACE] (analyze_strings parse strings) ∧ isspace c = false) →
  generate CLOUD (join [SPACE] (analyze_strings parse strings)) = Raise e →
  generate_wordcloud parse generate plt (PList (PStr <$> strings)) output_path w
  = (Raise e, w).
Proof.
  intros Hchar Hgen.
  rewrite generate_wordcloud_cases, texts_of_strings. simpl.
  apply truthy_strip_true in Hchar. by rewrite Hchar, Hgen.
Qed.

Lemma generate_wordcloud_renderer_raises_witness :
  generate_wordcloud tagger failing_renderer no_pyplot
    (PList [PStr NEKO_GA_HASHIRU])
    DEFAULT_OUTPUT_PATH used_world
  = (Raise ValueError, used_world).
Proof.
  apply (generate_wordcloud_renderer_raises tagger failing_renderer no_pyplot
           [NEKO_GA_HASHIRU] DEFAULT_OUTPUT_PATH used_world ValueError).
  - exists 29483. split; [|reflexivity].
    apply (bool_decide_unpack _). vm_compute. reflexivity.
  - reflexivity.
Defined.

(** X11. The guard of [generate_wordcloud], said of the words: the rendering
    is skipped, with the message, exactly when every word is empty or all
    white space; otherwise the renderer is called on the joined words. *)
Theorem generate_wordcloud_by_words
    (parse : str → str) (generate : WordCloud → str → result Image)
    (plt : Pyplot)
    (strings : list str) (output_path : str) (w : World) :
  generate_wordcloud parse generate plt (PList (PStr <$> strings)) output_path w
  = if decide (Forall (Forall isspace) (analyze_strings parse strings))
    then (Ok tt, {| stdout := stdout w ++ [NO_WORDS];
                    files := files w;
                    shown := shown w |})
    else (wordcloud ← lift (generate CLOUD
                              (join [SPACE] (analyze_strings parse strings)));
          save_and_show plt wordcloud output_path) w.
Proof.
  destruct (decide _) as [Hblank|Hword].
  - rewrite generate_wordcloud_blank; [done|].
    by apply truthy_strip_false, join_blank.
  - apply generate_wordcloud_drawn.
    destruct (truthy _) eqn:Htruthy; [done|].
    apply truthy_strip_false, join_blank in Htruthy. done.
Qed.

(** X13. Given a dict, [generate_wordcloud] analyses its keys, in their
    order; given a string, its characters one by one: the loop walks
    whatever iterable it is handed. *)
Theorem generate_wordcloud_dict_and_str
    (parse : str → str) (generate : WordCloud → str → result Image)
    (plt : Pyplot)
    (entries : list (str * pyval)) (s : str) (output_path : str) (w : World) :
  generate_wordcloud parse generate plt (PDict entries) output_path w
  = generate_wordcloud parse generate plt (PList (PStr <$> entries.*1))
      output_path w
  ∧ generate_wordcloud parse generate plt (PStr s) output_path w
    = generate_wordcloud parse generate plt (PList (PStr <$> ((λ c, [c]) <$> s)))
        output_path w.
Proof.
  rewrite !generate_wordcloud_cases, !texts_of_strings. done.
Qed.

(** X14. When the response has a status other than 200, the script prints
    the failure line, then the no-word message, writes no file, shows no
    figure and ends normally; neither the tagger nor the renderer plays a
    part. *)
Theorem main_not_200
    (parse : str → str) (generate : WordCloud → str → result Image)
    (plt : Pyplot)
    (requests_get : str → result Response) (response : Response) (w : World) :
  requests_get URL = Ok response →
  status_code response ≠ 200%Z →
  main parse generate plt requests_get w
  = (Ok tt, {| stdout := stdout w ++ [FAILED_PREFIX ++ URL; NO_WORDS];
               files := files w;
               shown := shown w |}).
Proof.
  intros Hget Hstatus.
  rewrite main_cases, (fetch_texts_other _ _ response) by done.
  rewrite (generate_wordcloud_blank parse generate plt []) by done.
  unfold print. cbn [stdout files shown]. by rewrite <- app_assoc.
Qed.

Lemma main_not_200_witness :
  main tagger failing_renderer no_pyplot (λ _, Ok not_found_reply) used_world
  = (Ok tt, {| stdout := stdout used_world ++ [FAILED_PREFIX ++ URL; NO_WORDS];
               files := files used_world;
               shown := shown used_world |}).
Proof.
  apply (main_not_200 tagger failing_renderer no_pyplot
           (λ _, Ok not_found_reply)
           not_found_reply used_world).
  - reflexivity.
  - simpl. lia.
Defined.

(** X15. The whole script, up to the drawing: with a 200 response whose
    body is a JSON array of strings, words that are not all blank and a
    renderer that gives an image, nothing has been printed or changed when
    the pyplot calls begin, they are made on that image with the path
    [wordcloud.png], and what they do, or raise, and the line printed after
    them, is how the script ends. *)
Theorem main_reaches_pyplot
    (parse : str → str) (generate : WordCloud → str → result Image)
    (plt : Pyplot)
    (requests_get : str → result Response)
    (response : Response) (strings : list str) (wordcloud : Image) (w : World) :
  requests_get URL = Ok response →
  status_code response = 200%Z →
  json response = Ok (PList (PStr <$> strings)) →
  (∃ c, c ∈ join [SPACE] (analyze_strings parse strings) ∧ isspace c = false) →
  generate CLOUD (join [SPACE] (analyze_strings parse strings)) = Ok wordcloud →
  main parse generate plt requests_get w
  = save_and_show plt wordcloud (decode "wordcloud.png") w.
Proof.
  intros Hget Hstatus Hjson Hchar Hgen.
  rewrite main_cases, (fetch_texts_200 _ _ response) by done.
  rewrite Hjson, generate_wordcloud_cases, texts_of_strings. simpl.
  apply truthy_strip_true in Hchar. by rewrite Hchar, Hgen.
Qed.

Lemma main_reaches_pyplot_witness :
  main tagger pixel_renderer sample_pyplot (λ _, Ok one_text_reply) used_world
  = save_and_show sample_pyplot [[(255, 255, 255)]] (decode "wordcloud.png")
      used_world.
Proof.
  apply (main_reaches_pyplot tagger pixel_renderer sample_pyplot
           (λ _, Ok one_text_reply) one_text_reply [NEKO_GA_HASHIRU]
           [[(255, 255, 255)]] used_world).
  - reflexivity.
  - reflexivity.
  - reflexivity.
  - exists 29483. split; [|reflexivity].
    apply (bool_decide_unpack _). vm_compute. reflexivity.
  - reflexivity.
Defined.

(** X16. The script catches nothing: an error of [requests.get], or of
    [response.json()] on a 200 response, ends it with that error, before
    anything is printed, written or shown. *)
Theorem main_raises_library_errors
    (parse : str → str) (generate : WordCloud → str → result Image)
    (plt : Pyplot)
    (requests_get : str → result Response) (e : exn) (w : World) :
  (requests_get URL = Raise e
   ∨ ∃ response,
       requests_get URL = Ok response
       ∧ status_code response = 200%Z
       ∧ json response = Raise e) →
  main parse generate plt requests_get w = (Raise e, w).
Proof.
  intros [Hget|(response & Hget & Hstatus & Hjson)]; rewrite main_cases.
  - by rewrite (fetch_texts_raises _ _ e) by done.
  - by rewrite (fetch_texts_200 _ _ response), Hjson by done.
Qed.

Lemma main_raises_library_errors_witness :
  main tagger pixel_renderer sample_pyplot (λ _, Ok garbled_reply) used_world
  = (Raise JSONDecodeError, used_world).
Proof.
  apply (main_raises_library_errors tagger pixel_renderer sample_pyplot
           (λ _, Ok garbled_reply) JSONDecodeError used_world).
  right. exists garbled_reply. repeat split; reflexivity.
Defined.

(** X17. A 200 response whose body is JSON [null], a boolean or a number is
    passed on as it is, and the loop over it ends the script with a
    [TypeError], nothing printed, written or shown. *)
Theorem main_not_iterable
    (parse : str → str) (generate : WordCloud → str → result Image)
    (plt : Pyplot)
    (requests_get : str → result Response)
    (response : Response) (v : pyval) (w : World) :
  requests_get URL = Ok response →
  status_code response = 200%Z →
  json response = Ok v →
  (v = PNone ∨ (∃ b, v = PBool b) ∨ (∃ z, v = PInt z)
   ∨ ∃ literal, v = PFloat literal) →
  main parse generate plt requests_get w = (Raise TypeError, w).
Proof.
  intros Hget Hstatus Hjson Hv.
  rewrite main_cases, (fetch_texts_200 _ _ response), Hjson by done.
  rewrite generate_wordcloud_cases.
  by destruct Hv as [->|[[b ->]|[[z ->]|[literal ->]]]].
Qed.

Lemma main_not_iterable_witness :
  main tagger pixel_renderer sample_pyplot (λ _, Ok null_reply) used_world
  = (Raise TypeError, used_world).
Proof.
  apply (main_not_iterable tagger pixel_renderer sample_pyplot
           (λ _, Ok null_reply)
           null_reply PNone used_world).
  - reflexivity.
  - reflexivity.
  - reflexivity.
  - left. reflexivity.
Defined.
